(** * query_users.py: the Postgres row dumper

    A shallow embedding of [004-postgres-client/query_users.py] and the
    properties its specification states about it.

    The script is a straight line of library calls.  Everything it does is an
    effect on the outside world (the clock, the database server reached through
    psycopg2, standard output), so the embedding is a small monad that threads
    the state of the process and lets a call raise.  The state survives a
    raise: what was printed before an exception stays printed, and a connection
    opened before it stays open.

    The script has no call that reads an environment variable, a command-line
    argument or a file.  The libraries it calls do: libpq takes what the
    keyword arguments leave open from the PG* variables, and the interpreter
    takes the encoding of standard output from PYTHONIOENCODING and the
    locale.  All of that, with the server and the latencies, is the [World] a
    run is parameterised by: the world decides what the server answers, how
    this process renders a column value, and which text standard output can
    encode.  The theorems quantify over all worlds.

    What the model takes from the runtime and from psycopg2:
    - [psycopg2.connect], [conn.cursor], [cur.execute] and [cur.fetchall] return
      or raise as the world decides;
    - [print] raises UnicodeEncodeError when the encoding of standard output
      cannot encode the line, which never happens to a line of ASCII
      characters; the device behind standard output takes every byte it is
      handed;
    - [time.sleep] and the two [close] calls return, no signal arrives and both
      modules are installed;
    - [time.sleep(s)] returns after at least [s] seconds of a clock that every
      other call can only advance; times are in milliseconds;
    - a [string] is the UTF-8 bytes of a text; standard output is the list of
      the lines printed, one per successful [print];
    - the interpreter exits with status 1 when an exception leaves the script
      and with status 0 otherwise. *)

From Stdlib Require Import String Ascii List ZArith NArith Lia Bool.
From Stdlib Require Import DecimalString.
Import ListNotations.

Local Open Scope string_scope.
Local Open Scope list_scope.

(** ** Exceptions of the runtime and of psycopg2 *)

Inductive Exn : Type :=
| OperationalError (msg : string)   (* unreachable host, rejected login, unknown database *)
| ProgrammingError (msg : string)   (* undefined table, no results to fetch *)
| InterfaceError (msg : string)     (* use of a closed connection or cursor *)
| UnicodeEncodeError (text : string) (* standard output cannot encode the text *)
| OtherError (cls msg : string).    (* anything else the client library signals *)

(** The keyword arguments of [psycopg2.connect]. *)
Record ConnParams : Type := mkConnParams {
  host : string;
  port : Z;
  database : string;
  user : string;
  password : string
}.

(** The calls the script makes on the outside world, in the order of the
    source text. *)
Inductive Event : Type :=
| EvSleep (secs : N)
| EvConnect (p : ConnParams)
| EvCursor
| EvExecute (sql : string)
| EvFetchall
| EvPrint (line : string)
| EvCursorClose
| EvConnClose.

(** Life cycle of the connection and of the cursor. *)
Inductive Resource : Type := Unborn | Live | Released.

Definition is_print (e : Event) : bool :=
  match e with EvPrint _ => true | _ => false end.

Definition is_close (e : Event) : bool :=
  match e with EvCursorClose | EvConnClose => true | _ => false end.

Definition is_conn_close (e : Event) : bool :=
  match e with EvConnClose => true | _ => false end.

Definition is_connect (e : Event) : bool :=
  match e with EvConnect _ => true | _ => false end.

Definition connect_params (e : Event) : option ConnParams :=
  match e with EvConnect p => Some p | _ => None end.

Fixpoint filter_map {A B : Type} (f : A -> option B) (xs : list A) : list B :=
  match xs with
  | [] => []
  | x :: xs' =>
      match f x with
      | Some y => y :: filter_map f xs'
      | None => filter_map f xs'
      end
  end.

(** [prefix_of xs ys]: [xs] is an initial segment of [ys]. *)
Definition prefix_of {A : Type} (xs ys : list A) : Prop :=
  exists rest, ys = xs ++ rest.

(** A text of ASCII characters only: every byte has its top bit clear. *)
Definition ascii_char (c : ascii) : bool :=
  match c with Ascii _ _ _ _ _ _ _ b7 => negb b7 end.

Fixpoint is_ascii (s : string) : bool :=
  match s with
  | EmptyString => true
  | String c s' => ascii_char c && is_ascii s'
  end.

Section RowDumper.

(** A column value is whatever Python object psycopg2 builds for the
    column (int, str, Decimal, datetime, memoryview, None, ...); the script
    never looks inside. *)
Context {Value : Type}.

(** A row is the tuple of its column values, a result set the list that
    [fetchall] returns. *)
Definition Row : Type := list Value.

(** ** [str()] of a tuple

    Python renders a tuple as its items' [repr]s separated by [", "]
    between parentheses, with a trailing comma for a one-item tuple.  [repr]
    is the [repr()] of the process that prints. *)
Fixpoint join (sep : string) (xs : list string) : string :=
  match xs with
  | [] => EmptyString
  | [x] => x
  | x :: xs' => (x ++ sep ++ join sep xs')%string
  end.

Definition tuple_str (repr : Value -> string) (row : Row) : string :=
  match row with
  | [v] => ("(" ++ repr v ++ ",)")%string
  | _ => ("(" ++ join ", " (map repr row) ++ ")")%string
  end.

(** ** The outside world *)

(** A database session as psycopg2 shows it to the script. *)
Record Session : Type := mkSession {
  db_cursor : option Exn;                   (* [conn.cursor()] raises? *)
  db_query : string -> Exn + list Row;      (* [cur.execute(sql)]: error or the rows *)
  db_fetch : option Exn                     (* [cur.fetchall()] raises? *)
}.

Record World : Type := mkWorld {
  (* time, in milliseconds *)
  import_time : string -> N;
  sleep_overshoot : N;
  call_time : Event -> N;
  (* the server behind [psycopg2.connect], as libpq reaches it from this
     process with its environment *)
  server : ConnParams -> Exn + Session;
  (* [repr()] of a column value in this process: a matter of the value for
     most types, of the process for some (a memoryview shows its address) *)
  repr_of : Value -> string;
  (* whether the encoding of standard output, fixed when the interpreter
     starts, can encode a text that is not all ASCII *)
  stdout_accepts : string -> bool
}.

(** Every encoding the interpreter offers for standard output can encode
    ASCII text. *)
Definition stdout_ok (w : World) (s : string) : bool :=
  is_ascii s || stdout_accepts w s.

(** ** The state of the process *)

Record Proc : Type := mkProc {
  clock : N;                        (* milliseconds since the process started *)
  stdout : list string;             (* the lines printed so far *)
  trace : list (N * Event);         (* the calls made so far, each with its start time *)
  conn_state : Resource;
  cur_state : Resource;
  cur_buffer : option (list Row)    (* the result the cursor holds after [execute] *)
}.

Definition init_proc : Proc := mkProc 0 [] [] Unborn Unborn None.

Definition advance (d : N) (p : Proc) : Proc :=
  mkProc (clock p + d) (stdout p) (trace p) (conn_state p) (cur_state p) (cur_buffer p).

Definition record (e : Event) (p : Proc) : Proc :=
  mkProc (clock p) (stdout p) (trace p ++ [(clock p, e)])
         (conn_state p) (cur_state p) (cur_buffer p).

Definition write_line (s : string) (p : Proc) : Proc :=
  mkProc (clock p) (stdout p ++ [s]) (trace p) (conn_state p) (cur_state p) (cur_buffer p).

Definition set_conn (r : Resource) (p : Proc) : Proc :=
  mkProc (clock p) (stdout p) (trace p) r (cur_state p) (cur_buffer p).

Definition set_cur (r : Resource) (p : Proc) : Proc :=
  mkProc (clock p) (stdout p) (trace p) (conn_state p) r (cur_buffer p).

Definition set_buffer (b : option (list Row)) (p : Proc) : Proc :=
  mkProc (clock p) (stdout p) (trace p) (conn_state p) (cur_state p) b.

(** ** The monad of the script: world reader, process state, exceptions *)

Definition Py (A : Type) : Type := World -> Proc -> (Exn + A) * Proc.

Definition ret {A : Type} (a : A) : Py A := fun _ p => (inr a, p).

Definition raise {A : Type} (e : Exn) : Py A := fun _ p => (inl e, p).

Definition bind {A B : Type} (m : Py A) (k : A -> Py B) : Py B :=
  fun w p =>
    match m w p with
    | (inl e, p') => (inl e, p')
    | (inr a, p') => k a w p'
    end.

(** A call on the outside world: logged with its start time, then it takes
    the time the world says. *)
Definition call (e : Event) : Py unit :=
  fun w p => (inr tt, advance (call_time w e) (record e p)).

Definition update (f : Proc -> Proc) : Py unit := fun _ p => (inr tt, f p).

Definition inspect {A : Type} (f : Proc -> A) : Py A := fun _ p => (inr (f p), p).

Definition ask {A : Type} (f : World -> A) : Py A := fun w p => (inr (f w), p).

Notation "x <- c ;; k" := (bind c (fun x => k))
  (at level 61, c at next level, right associativity).
Notation "c ;; k" := (bind c (fun _ => k))
  (at level 61, right associativity).

(** ** The library calls of the script *)

(** [import name]: takes time, touches nothing else. *)
Definition py_import (name : string) : Py unit :=
  fun w p => (inr tt, advance (import_time w name) p).

(** [time.sleep(secs)]: suspends the process for at least [secs] seconds. *)
Definition time_sleep (secs : N) : Py unit :=
  fun w p =>
    (inr tt, advance (1000 * secs + sleep_overshoot w) (record (EvSleep secs) p)).

(** The Python objects bound to [conn] and [cur]. *)
Record Connection : Type := mkConnection { conn_session : Session }.
Record Cursor : Type := mkCursor { cur_session : Session }.

(** [psycopg2.connect(host=..., port=..., ...)] *)
Definition psycopg2_connect (params : ConnParams) : Py Connection :=
  call (EvConnect params) ;;
  r <- ask (fun w => server w params) ;;
  match r with
  | inl e => raise e
  | inr s => update (set_conn Live) ;; ret (mkConnection s)
  end.

(** [conn.cursor()] *)
Definition conn_cursor (conn : Connection) : Py Cursor :=
  call EvCursor ;;
  st <- inspect conn_state ;;
  match st with
  | Live =>
      match db_cursor (conn_session conn) with
      | Some e => raise e
      | None => update (set_cur Live) ;; ret (mkCursor (conn_session conn))
      end
  | _ => raise (InterfaceError "connection already closed")
  end.

(** [cur.execute(sql)]: the client-side cursor receives the whole result. *)
Definition cur_execute (cur : Cursor) (sql : string) : Py unit :=
  call (EvExecute sql) ;;
  st <- inspect cur_state ;;
  match st with
  | Live =>
      match db_query (cur_session cur) sql with
      | inl e => raise e
      | inr rows => update (set_buffer (Some rows))
      end
  | _ => raise (InterfaceError "cursor already closed")
  end.

(** [cur.fetchall()]: hands over every row the cursor still holds. *)
Definition cur_fetchall (cur : Cursor) : Py (list Row) :=
  call EvFetchall ;;
  st <- inspect cur_state ;;
  match st with
  | Live =>
      match db_fetch (cur_session cur) with
      | Some e => raise e
      | None =>
          b <- inspect cur_buffer ;;
          match b with
          | None => raise (ProgrammingError "no results to fetch")
          | Some rows => update (set_buffer (Some [])) ;; ret rows
          end
      end
  | _ => raise (InterfaceError "cursor already closed")
  end.

(** [str(row)] of a row tuple, in this process. *)
Definition str_tuple (row : Row) : Py string :=
  ask (fun w => tuple_str (repr_of w) row).

(** What [print] does with a text: encode it for standard output, or raise
    when the encoding cannot. *)
Definition print_text (s : string) : Py unit :=
  call (EvPrint s) ;;
  ok <- ask (fun w => stdout_ok w s) ;;
  if ok then update (write_line s) else raise (UnicodeEncodeError s).

(** [print(row)]: the [str()] of the object, then the text. *)
Definition print (row : Row) : Py unit :=
  s <- str_tuple row ;; print_text s.

(** [cur.close()] *)
Definition cur_close (cur : Cursor) : Py unit :=
  call EvCursorClose ;; update (set_cur Released).

(** [conn.close()]: the connection takes its open cursors with it. *)
Definition release_cursor (p : Proc) : Proc :=
  match cur_state p with
  | Live => set_cur Released p
  | _ => p
  end.

Definition conn_close (conn : Connection) : Py unit :=
  call EvConnClose ;; update (set_conn Released) ;; update release_cursor.

(** [for x in xs: body(x)] *)
Fixpoint for_each {A : Type} (xs : list A) (body : A -> Py unit) : Py unit :=
  match xs with
  | [] => ret tt
  | x :: xs' => body x ;; for_each xs' body
  end.

(** ** The script *)

Definition main : Py unit :=
  py_import "psycopg2" ;;
  py_import "time" ;;
  time_sleep 5 ;;
  conn <- psycopg2_connect
            {| host := "postgres-db";
               port := 5432;
               database := "mydb";
               user := "admin";
               password := "admin123" |} ;;
  cur <- conn_cursor conn ;;
  cur_execute cur "SELECT * FROM users" ;;
  rows <- cur_fetchall cur ;;
  print_text "Users in the database:" ;;
  for_each rows (fun row => print row) ;;
  cur_close cur ;;
  conn_close conn.

(** ** A run of the process *)

(** The interpreter exits with status 0 when the script ends, and with
    status 1 when an exception leaves it. *)
Record Outcome : Type := mkOutcome {
  exit_status : Z;
  uncaught : option Exn;
  final : Proc
}.

Definition run (w : World) : Outcome :=
  match main w init_proc with
  | (inl e, p) => mkOutcome 1 (Some e) p
  | (inr _, p) => mkOutcome 0 None p
  end.

Definition output (o : Outcome) : list string := stdout (final o).

Definition events (o : Outcome) : list Event := map snd (trace (final o)).

(** The time at which the run first called [psycopg2.connect], if it did. *)
Fixpoint first_connect (tr : list (N * Event)) : option N :=
  match tr with
  | [] => None
  | (t, EvConnect _) :: _ => Some t
  | _ :: tr' => first_connect tr'
  end.

End RowDumper.

Arguments Row : clear implicits.
Arguments Session : clear implicits.
Arguments World : clear implicits.
Arguments Proc : clear implicits.
Arguments Py : clear implicits.
Arguments Connection : clear implicits.
Arguments Cursor : clear implicits.
Arguments Outcome : clear implicits.

(** ** Names for what the specification talks about *)

Definition header : string := "Users in the database:".

Definition query : string := "SELECT * FROM users".

(** The connection parameters as the source spells them. *)
Definition fixed_params : ConnParams :=
  mkConnParams "postgres-db" 5432 "mydb" "admin" "admin123".

(** The lines after the header line. *)
Definition data_lines (out : list string) : list string := tl out.

(** The library calls that can raise before anything is printed, in program
    order. *)
Inductive Step : Type := AtConnect | AtCursor | AtExecute | AtFetch.

(** What the world answers to the calls of the script: the rows of the
    [users] table, or the first call that raises and its exception. *)
Definition diagnose {Value : Type} (w : World Value) : (Step * Exn) + list (Row Value) :=
  match server w fixed_params with
  | inl e => inl (AtConnect, e)
  | inr s =>
      match db_cursor s with
      | Some e => inl (AtCursor, e)
      | None =>
          match db_query s query with
          | inl e => inl (AtExecute, e)
          | inr rows =>
              match db_fetch s with
              | Some e => inl (AtFetch, e)
              | None => inr rows
              end
          end
      end
  end.

(** The lines the rows print as in the process of [w]. *)
Definition lines_of {Value : Type} (w : World Value) (rows : list (Row Value))
    : list string :=
  map (tuple_str (repr_of w)) rows.

(** Standard output can encode the line of every row. *)
Definition all_printable {Value : Type} (w : World Value) (rows : list (Row Value))
    : bool :=
  forallb (stdout_ok w) (lines_of w rows).

(** The lines before the first one standard output cannot encode. *)
Fixpoint printed_part {Value : Type} (w : World Value) (lines : list string)
    : list string :=
  match lines with
  | [] => []
  | l :: ls => if stdout_ok w l then l :: printed_part w ls else []
  end.

(** The lines up to and including the first one standard output cannot
    encode: those [print] is called with. *)
Fixpoint attempted {Value : Type} (w : World Value) (lines : list string)
    : list string :=
  match lines with
  | [] => []
  | l :: ls => l :: (if stdout_ok w l then attempted w ls else [])
  end.

(** The calls up to and including [fetchall]. *)
Definition prologue : list Event :=
  [EvSleep 5; EvConnect fixed_params; EvCursor; EvExecute query; EvFetchall].

(** The one line the script follows, for the rows [fetchall] hands over. *)
Definition plan {Value : Type} (repr : Value -> string) (rows : list (Row Value))
    : list Event :=
  prologue ++ EvPrint header :: map (fun row => EvPrint (tuple_str repr row)) rows
           ++ [EvCursorClose; EvConnClose].

(** How many calls of the prologue a run makes when it fails at a step. *)
Definition calls_until (st : Step) : nat :=
  match st with
  | AtConnect => 2
  | AtCursor => 3
  | AtExecute => 4
  | AtFetch => 5
  end.

(** The time the imports take: the clock when [time.sleep] is called. *)
Definition boot_time {Value : Type} (w : World Value) : N :=
  import_time w "psycopg2" + import_time w "time".

(** The process after a logged call that took its time. *)
Definition called {Value : Type} (w : World Value) (e : Event) (p : Proc Value)
    : Proc Value :=
  advance (call_time w e) (record e p).

(** The process when [time.sleep(5)] has returned. *)
Definition slept {Value : Type} (w : World Value) : Proc Value :=
  advance (1000 * 5 + sleep_overshoot w)
    (record (EvSleep 5)
       (advance (import_time w "time")
          (advance (import_time w "psycopg2") init_proc))).

(** The process when [fetchall] has handed over [rows]. *)
Definition fetched {Value : Type} (w : World Value) (rows : list (Row Value))
    : Proc Value :=
  set_buffer (Some [])
    (called w EvFetchall
       (set_buffer (Some rows)
          (called w (EvExecute query)
             (set_cur Live
                (called w EvCursor
                   (set_conn Live
                      (called w (EvConnect fixed_params) (slept w)))))))).

(** The process after [cur.close()] and [conn.close()]. *)
Definition closed {Value : Type} (w : World Value) (p : Proc Value) : Proc Value :=
  set_conn Released
    (called w EvConnClose (set_cur Released (called w EvCursorClose p))).

(** The process after one [print] that standard output took. *)
Definition printed {Value : Type} (w : World Value) (s : string) (p : Proc Value)
    : Proc Value :=
  write_line s (called w (EvPrint s) p).

(** The [for] loop over the rows that print as [lines]: it ends, or stops at
    the first line standard output cannot encode. *)
Fixpoint loop_result {Value : Type} (w : World Value) (lines : list string)
    (p : Proc Value) : (Exn + unit) * Proc Value :=
  match lines with
  | [] => (inr tt, p)
  | l :: ls =>
      if stdout_ok w l then loop_result w ls (printed w l p)
      else (inl (UnicodeEncodeError l), called w (EvPrint l) p)
  end.

(** What the script does after the loop: close both and end, or nothing when
    the loop raised. *)
Definition finish {Value : Type} (w : World Value) (r : (Exn + unit) * Proc Value)
    : Outcome Value :=
  match r with
  | (inl e, p) => mkOutcome 1 (Some e) p
  | (inr _, p) => mkOutcome 0 None (closed w p)
  end.

(** The SQL text an [execute] call sends. *)
Definition executed_sql (e : Event) : option string :=
  match e with EvExecute sql => Some sql | _ => None end.

(** A logged call respects the delay: it is the sleep itself, or it starts
    5000 ms or more after the process started. *)
Definition after_sleep (te : N * Event) : Prop :=
  snd te = EvSleep 5 \/ (5000 <= fst te)%N.

(** ** A concrete runtime, for running the model

    Integers, strings, booleans, [None] and the memoryview psycopg2 builds
    for a bytea column, with Python's [repr].  A memoryview is known by
    the order in which the process built it ([obj]); where it lies in memory
    is the allocator's business. *)

Inductive PyVal : Type :=
| PyNone
| PyBool (b : bool)
| PyInt (z : Z)
| PyStr (s : string)
| PyMemoryview (obj : N) (data : string).

Definition squote : ascii := "'"%char.
Definition dquote : ascii := "034"%char.
Definition backslash : ascii := "\"%char.

Fixpoint occurs (c : ascii) (s : string) : bool :=
  match s with
  | EmptyString => false
  | String d s' => Ascii.eqb c d || occurs c s'
  end.

Definition hex_digit (n : nat) : ascii :=
  match n with
  | 0 => "0" | 1 => "1" | 2 => "2" | 3 => "3" | 4 => "4" | 5 => "5" | 6 => "6"
  | 7 => "7" | 8 => "8" | 9 => "9" | 10 => "a" | 11 => "b" | 12 => "c"
  | 13 => "d" | 14 => "e" | _ => "f"
  end%char.

(** One byte of a [str] inside its [repr], for the quote [q] in use.  A byte
    above 127 belongs to the UTF-8 form of a character beyond ASCII and is
    kept: that is Python's [repr] for the printable ones, which are all this
    runtime is run on (Python escapes the others, such as U+00A0). *)
Definition escape_char (q c : ascii) : string :=
  let n := nat_of_ascii c in
  if Ascii.eqb c backslash then String backslash (String backslash EmptyString)
  else if Ascii.eqb c q then String backslash (String q EmptyString)
  else if Nat.eqb n 9 then String backslash "t"
  else if Nat.eqb n 10 then String backslash "n"
  else if Nat.eqb n 13 then String backslash "r"
  else if Nat.ltb n 32 || Nat.eqb n 127 then
    String backslash
      (String "x" (String (hex_digit (n / 16)) (String (hex_digit (n mod 16)) EmptyString)))
  else String c EmptyString.

Fixpoint escape (q : ascii) (s : string) : string :=
  match s with
  | EmptyString => EmptyString
  | String c s' => (escape_char q c ++ escape q s')%string
  end.

(** Python uses single quotes unless the text has a single quote and no
    double quote. *)
Definition str_repr (s : string) : string :=
  let q := if occurs squote s && negb (occurs dquote s) then dquote else squote in
  String q (escape q s ++ String q EmptyString)%string.

(** Lower-case hexadecimal digits of a number, most significant first. *)
Fixpoint hex_digits (fuel : nat) (n : N) (acc : string) : string :=
  match fuel with
  | O => acc
  | S fuel' =>
      let acc' := String (hex_digit (N.to_nat (n mod 16))) acc in
      if (n / 16 =? 0)%N then acc' else hex_digits fuel' (n / 16) acc'
  end.

Definition hex (n : N) : string :=
  if (n =? 0)%N then "0" else hex_digits (N.size_nat n) n EmptyString.

(** [repr()] in a process whose allocator put the memoryviews at [addr]. *)
Definition py_repr (addr : N -> N) (v : PyVal) : string :=
  match v with
  | PyNone => "None"
  | PyBool true => "True"
  | PyBool false => "False"
  | PyInt z => NilZero.string_of_int (Z.to_int z)
  | PyStr s => str_repr s
  | PyMemoryview obj _ => ("<memory at 0x" ++ hex (addr obj) ++ ">")%string
  end.

(** Latencies of a world in which every call takes a few milliseconds. *)
Definition demo_call_time (e : Event) : N :=
  match e with
  | EvConnect _ => 40
  | EvExecute _ => 12
  | _ => 1
  end.

Definition demo_import_time (name : string) : N :=
  if String.eqb name "psycopg2" then 85 else 2.

Definition users_session (rows : list (list PyVal)) : Session PyVal :=
  mkSession None
    (fun sql => if String.eqb sql "SELECT * FROM users" then inr rows
                else inl (ProgrammingError "syntax error"))
    None.

(** Where one process put its memoryviews. *)
Definition demo_addr (obj : N) : N := 139896014110336 + 64 * obj.

(** A process whose standard output is UTF-8. *)
Definition demo_world (srv : ConnParams -> Exn + Session PyVal) : World PyVal :=
  mkWorld demo_import_time 3 demo_call_time srv (py_repr demo_addr) (fun _ => true).

(** The same process started with an ASCII standard output. *)
Definition ascii_world (srv : ConnParams -> Exn + Session PyVal) : World PyVal :=
  mkWorld demo_import_time 3 demo_call_time srv (py_repr demo_addr) (fun _ => false).

(** The two users of the specification's example, and a server that holds
    them. *)
Definition users_rows : list (list PyVal) :=
  [[PyInt 1; PyStr "alice"]; [PyInt 2; PyStr "bob"]].

Definition w_users : World PyVal :=
  demo_world (fun _ => inr (users_session users_rows)).


(** Three users, the second with a name beyond ASCII: z, o, e with diaeresis
    (bytes 195 171 in UTF-8). *)
Definition zoe : string :=
  String "z" (String "o" (String "195" (String "171" EmptyString))).

Definition zoe_rows : list (list PyVal) :=
  [[PyInt 1; PyStr "alice"]; [PyInt 2; PyStr zoe]; [PyInt 3; PyStr "carol"]].

Definition w_zoe : World PyVal :=
  demo_world (fun _ => inr (users_session zoe_rows)).

Definition w_zoe_ascii : World PyVal :=
  ascii_world (fun _ => inr (users_session zoe_rows)).




(** A server whose [users] table is empty. *)
Definition w_empty : World PyVal :=
  demo_world (fun _ => inr (users_session [])).

(** No server answers at the host. *)
Definition w_unreachable : World PyVal :=
  demo_world (fun _ => inl (OperationalError "could not translate host name")).

(** The database has no [users] table. *)
Definition w_no_table : World PyVal :=
  demo_world (fun _ => inr (mkSession None
    (fun _ => inl (ProgrammingError "relation users does not exist")) None)).

(** The connection drops while the rows are fetched. *)
Definition w_fetch_fails : World PyVal :=
  demo_world (fun _ => inr (mkSession None (fun _ => inr [[PyInt 1]])
    (Some (OperationalError "server closed the connection unexpectedly")))).

(** The session cannot open a cursor. *)
Definition w_no_cursor : World PyVal :=
  demo_world (fun _ => inr (mkSession (Some (OtherError "MemoryError" "out of memory"))
    (fun _ => inr []) None)).

(** A table whose one row holds the header text itself. *)
Definition w_echo : World PyVal :=
  demo_world (fun _ => inr (users_session [[PyStr "Users in the database:"]])).

(** * Properties *)

(** Symbolic execution of the script: unfold the monad and the library calls,
    leave arithmetic and the world alone. *)
Ltac crunch :=
  cbv beta iota zeta delta
    [bind ret raise call ask inspect update
     py_import time_sleep psycopg2_connect conn_cursor cur_execute cur_fetchall
     print print_text str_tuple cur_close conn_close release_cursor
     conn_session cur_session
     advance record write_line set_conn set_cur set_buffer init_proc
     clock stdout trace conn_state cur_state cur_buffer].

Ltac literals :=
  change (mkConnParams "postgres-db" 5432 "mydb" "admin" "admin123")
    with fixed_params in *;
  change "SELECT * FROM users" with query in *;
  change "Users in the database:" with header in *.

(** Unfold the states along the line down to their fields. *)
Ltac states :=
  cbv beta iota delta
    [printed fetched called slept closed
     advance record write_line set_conn set_cur set_buffer init_proc
     clock stdout trace conn_state cur_state cur_buffer app].

Ltac late := unfold after_sleep; first [left; reflexivity | right; cbn [fst]; lia].

Ltac all_late := repeat (apply Forall_cons; [late|]); apply Forall_nil.

Section Properties.

Context {Value : Type}.

Implicit Types (w : World Value) (p : Proc Value) (rows : list (Row Value)).
Implicit Types (lines : list string).

(** ** Printing *)

Lemma stdout_ok_header w : stdout_ok w header = true.
Proof. reflexivity. Qed.

Lemma print_eq w (row : Row Value) p :
  print row w p
  = if stdout_ok w (tuple_str (repr_of w) row)
    then (inr tt, printed w (tuple_str (repr_of w) row) p)
    else (inl (UnicodeEncodeError (tuple_str (repr_of w) row)),
          called w (EvPrint (tuple_str (repr_of w) row)) p).
Proof.
  crunch. now destruct (stdout_ok w (tuple_str (repr_of w) row)).
Qed.

(** ** The loop *)

Lemma for_each_print w rows p :
  for_each rows (fun row => print row) w p = loop_result w (lines_of w rows) p.
Proof.
  revert p. induction rows as [|row rows IH]; intros p; [reflexivity|].
  cbn [for_each lines_of map loop_result]. unfold bind at 1. rewrite print_eq.
  destruct (stdout_ok w (tuple_str (repr_of w) row)); [apply IH | reflexivity].
Qed.

Lemma loop_stdout w lines p :
  stdout (snd (loop_result w lines p)) = stdout p ++ printed_part w lines.
Proof.
  revert p. induction lines as [|l ls IH]; intros p; cbn [loop_result printed_part].
  - cbn. now rewrite app_nil_r.
  - destruct (stdout_ok w l).
    + rewrite IH. cbn. now rewrite <- app_assoc.
    + cbn. now rewrite app_nil_r.
Qed.

Lemma loop_events w lines p :
  map snd (trace (snd (loop_result w lines p)))
  = map snd (trace p) ++ map EvPrint (attempted w lines).
Proof.
  revert p. induction lines as [|l ls IH]; intros p; cbn [loop_result attempted map].
  - cbn. now rewrite app_nil_r.
  - destruct (stdout_ok w l).
    + rewrite IH. cbn. rewrite map_app, <- app_assoc. reflexivity.
    + cbn. now rewrite map_app.
Qed.

Lemma loop_resources w lines p :
  conn_state (snd (loop_result w lines p)) = conn_state p /\
  cur_state (snd (loop_result w lines p)) = cur_state p.
Proof.
  revert p. induction lines as [|l ls IH]; intros p; cbn [loop_result].
  - now split.
  - destruct (stdout_ok w l); [|now split].
    destruct (IH (printed w l p)) as [H1 H2]. now rewrite H1, H2.
Qed.

(** The loop only appends [print] calls to the trace, none of them earlier
    than its start, and the clock does not go back. *)
Lemma loop_trace w lines p :
  exists extra,
    trace (snd (loop_result w lines p)) = trace p ++ extra /\
    Forall (fun te => is_print (snd te) = true /\ (clock p <= fst te)%N) extra /\
    (clock p <= clock (snd (loop_result w lines p)))%N.
Proof.
  revert p. induction lines as [|l ls IH]; intros p; cbn [loop_result].
  - exists []. cbn. rewrite app_nil_r. repeat split; [constructor | lia].
  - destruct (stdout_ok w l).
    + destruct (IH (printed w l p)) as (extra & E & F & C).
      change (clock (printed w l p)) with (clock p + call_time w (EvPrint l))%N in *.
      exists ((clock p, EvPrint l) :: extra). split; [|split].
      * rewrite E. cbn. now rewrite <- app_assoc.
      * constructor; [split; [reflexivity | cbn; lia]|].
        eapply Forall_impl; [|exact F]. cbn. intros te [H1 H2]. split; [exact H1 | lia].
      * lia.
    + exists [(clock p, EvPrint l)]. cbn [snd]. split; [reflexivity|]. split.
      * constructor; [split; [reflexivity | cbn; lia] | constructor].
      * change (clock p <= clock p + call_time w (EvPrint l))%N. lia.
Qed.

(** The loop ends exactly when every line can be encoded; it raises on the
    first line that cannot. *)
Lemma loop_ends w lines p :
  forallb (stdout_ok w) lines = true ->
  fst (loop_result w lines p) = inr tt /\
  printed_part w lines = lines /\ attempted w lines = lines.
Proof.
  revert p. induction lines as [|l ls IH]; intros p H;
    cbn [loop_result printed_part attempted forallb] in *.
  - now repeat split.
  - apply andb_prop in H. destruct H as [Hl Hls]. rewrite Hl.
    destruct (IH (printed w l p) Hls) as (H1 & H2 & H3).
    now rewrite H1, H2, H3.
Qed.

Lemma loop_raises w lines p :
  forallb (stdout_ok w) lines = false ->
  exists l,
    fst (loop_result w lines p) = inl (UnicodeEncodeError l) /\
    In l lines /\ stdout_ok w l = false /\
    length (printed_part w lines) < length lines.
Proof.
  revert p. induction lines as [|l ls IH]; intros p H;
    cbn [loop_result printed_part forallb] in *; [discriminate|].
  destruct (stdout_ok w l) eqn:Hl.
  - cbn [andb] in H. destruct (IH (printed w l p) H) as (l' & H1 & H2 & H3 & H4).
    exists l'. cbn. repeat split; auto. lia.
  - exists l. cbn. repeat split; auto. lia.
Qed.

Lemma attempted_prefix w lines : prefix_of (attempted w lines) lines.
Proof.
  induction lines as [|l ls [rest IH]]; cbn [attempted].
  - now exists [].
  - destruct (stdout_ok w l).
    + exists rest. cbn. now rewrite <- IH.
    + now exists ls.
Qed.

Lemma printed_part_prefix w lines : prefix_of (printed_part w lines) lines.
Proof.
  induction lines as [|l ls [rest IH]]; cbn [printed_part].
  - now exists [].
  - destruct (stdout_ok w l).
    + exists rest. cbn. now rewrite <- IH.
    + now exists (l :: ls).
Qed.

(** ** The kinds of run *)

(** Connect, cursor, execute and fetch succeed: the script prints the header
    and enters the loop over the rows. *)
Lemma run_fetched w rows :
  diagnose w = inr rows ->
  run w = finish w (loop_result w (lines_of w rows) (printed w header (fetched w rows))).
Proof.
  unfold diagnose, run, main. intros D.
  set (body := fun row : Row Value => print row).
  crunch. literals.
  destruct (server w fixed_params) as [e|s]; [discriminate|]. crunch.
  destruct (db_cursor s) as [e|]; [discriminate|]. crunch.
  destruct (db_query s query) as [e|rows']; [discriminate|]. crunch.
  destruct (db_fetch s) as [e|]; [discriminate|]. crunch.
  injection D as ->.
  rewrite (stdout_ok_header w). crunch.
  subst body. rewrite for_each_print.
  match goal with
  | |- context [loop_result w ?l ?q] =>
      change (printed w header (fetched w rows)) with q
  end.
  unfold finish.
  match goal with
  | |- context [loop_result w ?l ?q] => destruct (loop_result w l q) as [[e|[]] q']
  end; reflexivity.
Qed.

(** The world raises at [st]: the script stops there, with nothing printed,
    nothing closed, and the calls made so far in the trace. *)
Lemma run_err w st e :
  diagnose w = inl (st, e) ->
  exists p,
    run w = mkOutcome 1 (Some e) p /\
    stdout p = [] /\
    map snd (trace p) = firstn (calls_until st) prologue /\
    conn_state p = match st with AtConnect => Unborn | _ => Live end /\
    (exists rest,
       trace p = trace (called w (EvConnect fixed_params) (slept w)) ++ rest /\
       Forall (fun te => is_connect (snd te) = false) rest) /\
    Forall after_sleep (trace p) /\ (5000 <= clock p)%N.
Proof.
  unfold diagnose, run, main. intros D.
  set (body := fun row : Row Value => print row).
  crunch. literals.
  destruct (server w fixed_params) as [e1|s]; crunch.
  { injection D as <- <-. eexists. split; [reflexivity|].
    cbn [stdout trace clock conn_state app].
    repeat split; [exists []; split; [reflexivity | constructor] | all_late | lia]. }
  destruct (db_cursor s) as [e2|]; crunch.
  { injection D as <- <-. eexists. split; [reflexivity|].
    cbn [stdout trace clock conn_state app].
    repeat split;
      [eexists; split; [reflexivity | repeat constructor] | all_late | lia]. }
  destruct (db_query s query) as [e3|rows']; crunch.
  { injection D as <- <-. eexists. split; [reflexivity|].
    cbn [stdout trace clock conn_state app].
    repeat split;
      [eexists; split; [reflexivity | repeat constructor] | all_late | lia]. }
  destruct (db_fetch s) as [e4|]; crunch.
  { injection D as <- <-. eexists. split; [reflexivity|].
    cbn [stdout trace clock conn_state app].
    repeat split;
      [eexists; split; [reflexivity | repeat constructor] | all_late | lia]. }
  discriminate.
Qed.

(** The process when the loop is over or has raised. *)
Lemma loop_state w rows :
  let q := snd (loop_result w (lines_of w rows) (printed w header (fetched w rows))) in
  stdout q = header :: printed_part w (lines_of w rows) /\
  map snd (trace q)
  = prologue ++ EvPrint header :: map EvPrint (attempted w (lines_of w rows)) /\
  conn_state q = Live /\ cur_state q = Live /\
  (exists rest,
     trace q = trace (called w (EvConnect fixed_params) (slept w)) ++ rest /\
     Forall (fun te => is_connect (snd te) = false) rest) /\
  Forall after_sleep (trace q) /\ (5000 <= clock q)%N.
Proof.
  intros q. subst q.
  set (L := lines_of w rows). set (P0 := printed w header (fetched w rows)).
  assert (C0 : (5000 <= clock P0)%N).
  { unfold P0. states. lia. }
  destruct (loop_trace w L P0) as (extra & E & F & C).
  split; [|split; [|split; [|split; [|split; [|split]]]]].
  - rewrite loop_stdout. reflexivity.
  - rewrite loop_events. reflexivity.
  - now rewrite (proj1 (loop_resources w L P0)).
  - now rewrite (proj2 (loop_resources w L P0)).
  - rewrite E. eexists. split.
    + unfold P0, printed, fetched, called.
      cbn [trace write_line advance record set_buffer set_cur set_conn].
      rewrite <- !app_assoc. reflexivity.
    + repeat (apply Forall_app; split); repeat constructor.
      eapply Forall_impl; [|exact F]. intros [t ev] [H _]. cbn in *. now destruct ev.
  - rewrite E. apply Forall_app. split.
    + unfold P0. states. all_late.
    + eapply Forall_impl; [|exact F]. intros te [_ H]. right. lia.
  - lia.
Qed.

Lemma closed_facts w p :
  stdout (closed w p) = stdout p /\
  trace (closed w p)
  = trace p ++ [(clock p, EvCursorClose);
                ((clock p + call_time w EvCursorClose)%N, EvConnClose)] /\
  conn_state (closed w p) = Released /\ cur_state (closed w p) = Released /\
  (clock p <= clock (closed w p))%N.
Proof.
  repeat split.
  - unfold closed, called.
    cbn [trace advance record set_cur set_conn clock]. now rewrite <- app_assoc.
  - change (clock p <= clock p + call_time w EvCursorClose + call_time w EvConnClose)%N.
    lia.
Qed.

(** Nothing raises: the script runs to its end. *)
Lemma run_complete w rows :
  diagnose w = inr rows -> all_printable w rows = true ->
  exit_status (run w) = 0%Z /\ uncaught (run w) = None /\
  output (run w) = header :: lines_of w rows /\
  events (run w) = plan (repr_of w) rows /\
  conn_state (final (run w)) = Released /\ cur_state (final (run w)) = Released.
Proof.
  intros D A. rewrite (run_fetched w rows D).
  destruct (loop_ends w _ (printed w header (fetched w rows)) A) as (R & PP & AT).
  destruct (loop_state w rows) as (O & E & _).
  destruct (loop_result w (lines_of w rows) (printed w header (fetched w rows)))
    as [r q]. cbn [fst snd] in *. subst r.
  unfold finish, output, events. cbn [exit_status uncaught final].
  destruct (closed_facts w q) as (S & T & K1 & K2 & _).
  rewrite S, T, O, PP, K1, K2, map_app, E, AT.
  repeat split. unfold plan, lines_of. rewrite map_map, <- app_assoc. reflexivity.
Qed.

(** A row cannot be encoded: the script stops at its [print], with the lines
    before it printed and nothing closed. *)
Lemma run_print_raises w rows :
  diagnose w = inr rows -> all_printable w rows = false ->
  exit_status (run w) = 1%Z /\
  (exists l, uncaught (run w) = Some (UnicodeEncodeError l) /\
             In l (lines_of w rows) /\ stdout_ok w l = false) /\
  output (run w) = header :: printed_part w (lines_of w rows) /\
  length (printed_part w (lines_of w rows)) < length rows /\
  events (run w)
  = prologue ++ EvPrint header :: map EvPrint (attempted w (lines_of w rows)) /\
  conn_state (final (run w)) = Live /\ cur_state (final (run w)) = Live.
Proof.
  intros D A. rewrite (run_fetched w rows D).
  destruct (loop_raises w _ (printed w header (fetched w rows)) A)
    as (l & R & I & B & Len).
  destruct (loop_state w rows) as (O & E & K1 & K2 & _).
  destruct (loop_result w (lines_of w rows) (printed w header (fetched w rows)))
    as [r q]. cbn [fst snd] in *. subst r.
  unfold finish, output, events. cbn [exit_status uncaught final].
  unfold lines_of in Len. rewrite length_map in Len.
  repeat split; auto. now exists l.
Qed.

(** ** Facts about every run *)

Lemma run_output w rows :
  diagnose w = inr rows ->
  output (run w) = header :: printed_part w (lines_of w rows).
Proof.
  intros D. destruct (all_printable w rows) eqn:A.
  - destruct (run_complete w rows D A) as (_ & _ & O & _).
    rewrite O. unfold all_printable in A.
    now rewrite (proj1 (proj2 (loop_ends w _ init_proc A))).
  - now destruct (run_print_raises w rows D A) as (_ & _ & O & _).
Qed.

(** Every run begins with the sleep and then the connection attempt,
    attempts no other connection, makes no call but the sleep before
    5000 ms, and does not end before. *)
Lemma run_trace w :
  (exists rest,
     trace (final (run w))
     = (boot_time w, EvSleep 5)
       :: ((boot_time w + (5000 + sleep_overshoot w))%N, EvConnect fixed_params)
       :: rest /\
     Forall (fun te => is_connect (snd te) = false) rest) /\
  Forall after_sleep (trace (final (run w))) /\
  (5000 <= clock (final (run w)))%N.
Proof.
  destruct (diagnose w) as [[st e]|rows] eqn:D.
  - destruct (run_err w st e D) as (p & -> & _ & _ & _ & (rest & E & F) & L & C).
    cbn [final]. split; [|now split].
    exists rest. split; [|exact F]. rewrite E. reflexivity.
  - rewrite (run_fetched w rows D).
    destruct (loop_state w rows) as (_ & _ & _ & _ & (rest & E & F) & L & C).
    destruct (loop_result w (lines_of w rows) (printed w header (fetched w rows)))
      as [[e|[]] q]; cbn [snd] in *; unfold finish; cbn [final].
    + split; [|now split]. exists rest. split; [|exact F]. rewrite E. reflexivity.
    + destruct (closed_facts w q) as (_ & T & _ & _ & C').
      rewrite T. split; [|split; [|lia]].
      * eexists. split.
        { rewrite E, <- app_assoc. reflexivity. }
        apply Forall_app. split; [exact F | repeat constructor].
      * apply Forall_app. split; [exact L | all_late].
Qed.

Lemma prologue_prefix_plan (repr : Value -> string) st rows :
  prefix_of (firstn (calls_until st) prologue) (plan repr rows).
Proof.
  unfold prefix_of, plan.
  exists (skipn (calls_until st) prologue
          ++ EvPrint header :: map (fun row => EvPrint (tuple_str repr row)) rows
          ++ [EvCursorClose; EvConnClose]).
  now rewrite app_assoc, firstn_skipn.
Qed.

(** In the plan, the whole prologue comes before every [print]. *)
Lemma plan_print_after_prologue (repr : Value -> string) rows pre line post :
  plan repr rows = pre ++ EvPrint line :: post ->
  exists pre', pre = prologue ++ pre'.
Proof.
  unfold plan, prologue. cbn [app]. intros H.
  do 5 (destruct pre as [|? pre]; [discriminate H|];
        injection H as <- H).
  now exists pre.
Qed.

Lemma prints_pass (f : Event -> bool) (g : Row Value -> string) rows :
  (forall s, f (EvPrint s) = false) ->
  Forall (fun ev => f ev = false) (map (fun row => EvPrint (g row)) rows) /\
  filter f (map (fun row => EvPrint (g row)) rows) = [].
Proof.
  intros Hf. induction rows as [|row rows [IH1 IH2]]; cbn.
  - split; [constructor | reflexivity].
  - rewrite Hf. split; [constructor; [apply Hf | exact IH1] | exact IH2].
Qed.

Lemma print_events_pass (f : Event -> bool) lines :
  (forall s, f (EvPrint s) = false) ->
  Forall (fun ev => f ev = false) (map EvPrint lines).
Proof.
  intros Hf. induction lines as [|l ls IH]; cbn; constructor; auto.
Qed.

Lemma no_connect_params (rest : list (N * Event)) :
  Forall (fun te => is_connect (snd te) = false) rest ->
  filter_map connect_params (map snd rest) = [].
Proof.
  induction 1 as [|[t ev] rest H _ IH]; cbn; [reflexivity|].
  destruct ev; cbn in *; try discriminate; exact IH.
Qed.

Lemma run_follows_plan w :
  exists rows, prefix_of (events (run w)) (plan (repr_of w) rows).
Proof.
  destruct (diagnose w) as [[st e]|rows] eqn:D.
  - destruct (run_err w st e D) as (p & -> & _ & E & _).
    exists []. unfold events. cbn [final]. rewrite E. apply prologue_prefix_plan.
  - exists rows. destruct (all_printable w rows) eqn:A.
    + destruct (run_complete w rows D A) as (_ & _ & _ & E & _).
      rewrite E. exists []. now rewrite app_nil_r.
    + destruct (run_print_raises w rows D A) as (_ & _ & _ & _ & E & _).
      rewrite E. destruct (attempted_prefix w (lines_of w rows)) as [rest R].
      exists (map EvPrint rest ++ [EvCursorClose; EvConnClose]).
      unfold plan. rewrite <- (map_map (tuple_str (repr_of w)) EvPrint).
      fold (lines_of w rows). rewrite R at 1.
      rewrite map_app, <- !app_assoc. reflexivity.
Qed.

(** ** Lists of calls and lines *)

Lemma filter_map_app {A B : Type} (f : A -> option B) (xs ys : list A) :
  filter_map f (xs ++ ys) = filter_map f xs ++ filter_map f ys.
Proof.
  induction xs as [|x xs IH]; cbn; [reflexivity|].
  destruct (f x); cbn; now rewrite IH.
Qed.

Lemma filter_map_prints {B : Type} (f : Event -> option B) lines :
  (forall s, f (EvPrint s) = None) ->
  filter_map f (map EvPrint lines) = [].
Proof.
  intros Hf. induction lines as [|l ls IH]; cbn; [reflexivity|].
  now rewrite Hf.
Qed.

Lemma prefix_in {A : Type} (xs ys : list A) x :
  prefix_of xs ys -> In x xs -> In x ys.
Proof. intros [rest ->] H. apply in_or_app. now left. Qed.

Lemma prefix_length {A : Type} (xs ys : list A) :
  prefix_of xs ys -> length xs <= length ys.
Proof. intros [rest ->]. rewrite length_app. lia. Qed.

(** ** The shape of a printed row *)

Lemma append_assoc (a b c : string) :
  ((a ++ b) ++ c)%string = (a ++ b ++ c)%string.
Proof. induction a as [|x a IH]; cbn; [reflexivity | now rewrite IH]. Qed.

Lemma tuple_str_parens (repr : Value -> string) (row : Row Value) :
  exists body, tuple_str repr row = ("(" ++ body ++ ")")%string.
Proof.
  destruct row as [|v [|v' row]].
  - exists EmptyString. reflexivity.
  - exists (repr v ++ ",")%string. cbn [tuple_str].
    now rewrite (append_assoc (repr v) "," ")").
  - eexists. reflexivity.
Qed.

Lemma tuple_str_not_header (repr : Value -> string) (row : Row Value) :
  tuple_str repr row <> header.
Proof.
  destruct (tuple_str_parens repr row) as (body & ->). discriminate.
Qed.

Lemma header_not_among lines :
  Forall (fun l => l <> header) lines ->
  count_occ string_dec lines header = 0.
Proof.
  induction 1 as [|l ls H _ IH]; [reflexivity|].
  now rewrite count_occ_cons_neq.
Qed.

(** ** The claims of the specification *)

(** C1. Every run follows one line of calls: sleep, connect, open the
    cursor and execute the query, fetch every row, print the header and the
    rows, close the cursor and the connection.  The calls of any run are an
    initial segment of that line, a run in which nothing raises makes all of
    them, a run in which a call raises stops at that call (the script has no
    handler, so this is the only way off the line), and [fetchall] has been
    called before any [print]. *)
Theorem C1_linear_run w :
  (exists rows, prefix_of (events (run w)) (plan (repr_of w) rows)) /\
  (forall rows, diagnose w = inr rows -> all_printable w rows = true ->
     events (run w) = plan (repr_of w) rows /\ uncaught (run w) = None) /\
  (forall st e, diagnose w = inl (st, e) ->
     events (run w) = firstn (calls_until st) prologue /\
     uncaught (run w) = Some e) /\
  (forall rows, diagnose w = inr rows -> all_printable w rows = false ->
     events (run w)
     = prologue ++ EvPrint header :: map EvPrint (attempted w (lines_of w rows)) /\
     exists l, uncaught (run w) = Some (UnicodeEncodeError l)) /\
  (forall pre line post,
     events (run w) = pre ++ EvPrint line :: post -> In EvFetchall pre).
Proof.
  split; [apply run_follows_plan|]. split; [|split; [|split]].
  - intros rows D A. now destruct (run_complete w rows D A) as (_ & U & _ & E & _).
  - intros st e D. destruct (run_err w st e D) as (p & -> & _ & E & _).
    unfold events. cbn [final uncaught]. now rewrite E.
  - intros rows D A.
    destruct (run_print_raises w rows D A) as (_ & (l & U & _) & _ & _ & E & _).
    split; [exact E | now exists l].
  - intros pre line post E.
    destruct (run_follows_plan w) as (rows & rest & P).
    rewrite E, <- app_assoc in P. cbn [app] in P.
    destruct (plan_print_after_prologue _ _ _ _ _ P) as (pre' & ->).
    apply in_or_app. left. cbn. tauto.
Qed.

(** C2. An exception raised by connect, by the cursor and execute step or
    by fetch is not caught: it leaves the script, the process exits with a
    status other than 0, and no data line (indeed no line) has been
    printed. *)
Theorem C2_errors_propagate w st e :
  diagnose w = inl (st, e) ->
  uncaught (run w) = Some e /\
  exit_status (run w) <> 0%Z /\
  data_lines (output (run w)) = [] /\
  Forall (fun ev => is_print ev = false) (events (run w)).
Proof.
  intros D. destruct (run_err w st e D) as (p & -> & O & E & _).
  unfold output, events. cbn [uncaught exit_status final]. rewrite O, E.
  repeat split; try discriminate.
  destruct st; cbn; repeat constructor.
Qed.


(** C4. The connection is never attempted before 5 seconds have passed
    since the process started: every run attempts it, every attempt is at
    5000 ms or later, and at least 5000 ms after the start of a
    [time.sleep(5)] that the trace holds. *)
Theorem C4_sleep_before_connect w :
  (exists t, first_connect (trace (final (run w))) = Some t) /\
  (forall t cp, In (t, EvConnect cp) (trace (final (run w))) ->
     (5000 <= t)%N /\
     exists t0, In (t0, EvSleep 5) (trace (final (run w))) /\ (t0 + 5000 <= t)%N).
Proof.
  destruct (run_trace w) as ((rest & -> & F) & _). split.
  - eexists. reflexivity.
  - intros t cp [H|[H|H]].
    + discriminate H.
    + apply (f_equal fst) in H. cbn [fst] in H. subst t. split; [lia|].
      exists (boot_time w). split; [now left | lia].
    + rewrite Forall_forall in F. specialize (F _ H). discriminate F.
Qed.

(** C5, as amended.  The data lines printed are never more than the rows
    of the result set, and exactly as many when the encoding of standard
    output can encode the line of every row. *)
Theorem C5_one_line_per_row w rows :
  diagnose w = inr rows ->
  length (data_lines (output (run w))) <= length rows /\
  (all_printable w rows = true ->
   length (data_lines (output (run w))) = length rows).
Proof.
  intros D. rewrite (run_output w rows D). cbn [data_lines tl]. split.
  - rewrite <- (length_map (tuple_str (repr_of w)) rows).
    apply prefix_length, printed_part_prefix.
  - intros A. unfold all_printable in A.
    rewrite (proj1 (proj2 (loop_ends w _ init_proc A))).
    apply length_map.
Qed.

(** C6. The header is printed only after connect, execute and fetch have
    succeeded: a run that printed it (or called [print] with it) had a world
    that raised nowhere, those three calls precede the [print] of the header
    in the trace, and a run in which one of them raises prints nothing. *)
Theorem C6_header_only_on_success w :
  (In header (output (run w)) \/ In (EvPrint header) (events (run w)) ->
     exists rows, diagnose w = inr rows) /\
  (forall pre post, events (run w) = pre ++ EvPrint header :: post ->
     In (EvConnect fixed_params) pre /\ In (EvExecute query) pre /\ In EvFetchall pre) /\
  (forall st e, diagnose w = inl (st, e) ->
     output (run w) = [] /\ ~ In (EvPrint header) (events (run w))).
Proof.
  assert (Hfail : forall st e, diagnose w = inl (st, e) ->
            output (run w) = [] /\ ~ In (EvPrint header) (events (run w))).
  { intros st e D. destruct (run_err w st e D) as (p & -> & O & E & _).
    unfold output, events. cbn [final]. rewrite O, E. split; [reflexivity|].
    destruct st; cbn; intros H; repeat (destruct H as [H|H]; [discriminate H|]);
      exact H. }
  split; [|split; [|exact Hfail]].
  - destruct (diagnose w) as [[st e]|rows] eqn:D; [|now exists rows].
    destruct (Hfail st e eq_refl) as [O N]. rewrite O.
    intros [[]|H]. now apply N in H.
  - intros pre post E.
    destruct (run_follows_plan w) as (rows & rest & P).
    rewrite E, <- app_assoc in P. cbn [app] in P.
    destruct (plan_print_after_prologue _ _ _ _ _ P) as (pre' & ->).
    repeat split; apply in_or_app; left; cbn; tauto.
Qed.

(** C7. On the run that reaches its end the connection is opened once
    and closed once, by [cur.close()] then [conn.close()] as the last two
    calls, and nothing is closed before them.  When connect, the cursor,
    execute or fetch raises, no close call is made: a connection that was
    opened stays open.  The same holds when a [print] raises. *)
Theorem C7_close_exactly_once w :
  (forall rows, diagnose w = inr rows -> all_printable w rows = true ->
     (exists pre, events (run w) = pre ++ [EvCursorClose; EvConnClose] /\
                  Forall (fun ev => is_close ev = false) pre) /\
     length (filter is_connect (events (run w))) = 1 /\
     length (filter is_conn_close (events (run w))) = 1 /\
     conn_state (final (run w)) = Released /\
     cur_state (final (run w)) = Released) /\
  (forall st e, diagnose w = inl (st, e) ->
     Forall (fun ev => is_close ev = false) (events (run w)) /\
     conn_state (final (run w))
     = match st with AtConnect => Unborn | _ => Live end) /\
  (forall rows, diagnose w = inr rows -> all_printable w rows = false ->
     Forall (fun ev => is_close ev = false) (events (run w)) /\
     conn_state (final (run w)) = Live).
Proof.
  split; [|split].
  - intros rows D A.
    destruct (run_complete w rows D A) as (_ & _ & _ & E & K1 & K2).
    rewrite E. split; [|split; [|split; [|now split]]].
    + exists (prologue
              ++ EvPrint header :: map (fun row => EvPrint (tuple_str (repr_of w) row)) rows).
      split.
      * unfold plan. rewrite <- app_assoc. reflexivity.
      * apply Forall_app. split; [repeat constructor|].
        constructor; [reflexivity|].
        now apply (prints_pass is_close (tuple_str (repr_of w)) rows).
    + unfold plan, prologue. cbn [app filter is_connect].
      rewrite filter_app.
      rewrite (proj2 (prints_pass is_connect (tuple_str (repr_of w)) rows
                        (fun _ => eq_refl))).
      reflexivity.
    + unfold plan, prologue. cbn [app filter is_conn_close].
      rewrite filter_app.
      rewrite (proj2 (prints_pass is_conn_close (tuple_str (repr_of w)) rows
                        (fun _ => eq_refl))).
      reflexivity.
  - intros st e D. destruct (run_err w st e D) as (p & -> & _ & E & C & _).
    unfold events. cbn [final]. rewrite E. split; [|exact C].
    destruct st; cbn; repeat constructor.
  - intros rows D A.
    destruct (run_print_raises w rows D A) as (_ & _ & _ & _ & E & K & _).
    rewrite E. split; [|exact K].
    apply Forall_app. split; [repeat constructor|].
    constructor; [reflexivity|]. now apply print_events_pass.
Qed.

(** C8. The connection parameters are the literals of the source: every
    run, in every world, attempts exactly one connection, and attempts it
    with host [postgres-db], port 5432, database [mydb], user [admin] and
    password [admin123]. *)
Theorem C8_fixed_parameters w :
  filter_map connect_params (events (run w))
  = [ {| host := "postgres-db"; port := 5432; database := "mydb";
         user := "admin"; password := "admin123" |} ].
Proof.
  destruct (run_trace w) as ((rest & E & F) & _).
  unfold events. rewrite E. cbn [map snd filter_map connect_params].
  now rewrite (no_connect_params rest F).
Qed.




(** C10. When the query returns no row, the script prints the header line
    and nothing else, closes the cursor and the connection, and the process
    exits with status 0. *)
Theorem C10_empty_result w :
  diagnose w = inr [] ->
  output (run w) = ["Users in the database:"] /\
  data_lines (output (run w)) = [] /\
  events (run w) = prologue ++ [EvPrint header; EvCursorClose; EvConnClose] /\
  cur_state (final (run w)) = Released /\
  conn_state (final (run w)) = Released /\
  exit_status (run w) = 0%Z /\
  uncaught (run w) = None.
Proof.
  intros D.
  destruct (run_complete w [] D eq_refl) as (X & U & O & E & K1 & K2).
  rewrite O, E. repeat split; assumption.
Qed.

(** ** What the script sends, prints and shows *)

(** X1. The only statement a run ever sends is [SELECT * FROM users], and it
    sends it once: no run sends anything else, a run in which connect or the
    cursor raises sends nothing, and every other run sends exactly that one
    statement. *)
Theorem X1_only_the_select w :
  filter_map executed_sql (events (run w))
  = match diagnose w with
    | inl (AtConnect, _) | inl (AtCursor, _) => []
    | _ => ["SELECT * FROM users"]
    end.
Proof.
  destruct (diagnose w) as [[st e]|rows] eqn:D.
  - destruct (run_err w st e D) as (p & -> & _ & E & _).
    unfold events. cbn [final]. rewrite E. now destruct st.
  - destruct (all_printable w rows) eqn:A.
    + destruct (run_complete w rows D A) as (_ & _ & _ & E & _).
      rewrite E. unfold plan, prologue. cbn [app filter_map executed_sql].
      rewrite filter_map_app, <- (map_map (tuple_str (repr_of w)) EvPrint).
      rewrite filter_map_prints by reflexivity. reflexivity.
    + destruct (run_print_raises w rows D A) as (_ & _ & _ & _ & E & _).
      rewrite E. unfold prologue. cbn [app filter_map executed_sql].
      rewrite filter_map_prints by reflexivity. reflexivity.
Qed.


(** X3. In the output of a run that reaches its end the header occurs
    exactly once, as the first line: every data line is a parenthesised tuple
    and so differs from the header, whatever the rows hold. *)
Theorem X3_header_once w rows :
  diagnose w = inr rows ->
  hd_error (output (run w)) = Some "Users in the database:" /\
  count_occ string_dec (output (run w)) "Users in the database:" = 1 /\
  Forall (fun line => exists body, line = ("(" ++ body ++ ")")%string)
         (data_lines (output (run w))).
Proof.
  intros D. rewrite (run_output w rows D).
  assert (P : Forall (fun line => exists body, line = ("(" ++ body ++ ")")%string)
                     (printed_part w (lines_of w rows))).
  { apply Forall_forall. intros line H.
    apply (prefix_in _ _ _ (printed_part_prefix w (lines_of w rows))) in H.
    unfold lines_of in H. apply in_map_iff in H. destruct H as (row & <- & _).
    apply tuple_str_parens. }
  split; [reflexivity|]. split; [|exact P].
  change "Users in the database:" with header.
  rewrite count_occ_cons_eq by reflexivity. f_equal.
  apply header_not_among. eapply Forall_impl; [|exact P].
  intros l (body & ->). discriminate.
Qed.

(** X4. Nothing happens during the first five seconds of a run, whether it
    succeeds or fails: every call other than the sleep itself (connect,
    cursor, execute, fetchall, each print, each close) starts at 5000 ms or
    later, and the process does not end before 5000 ms. *)
Theorem X4_quiet_for_five_seconds w :
  (forall t ev, In (t, ev) (trace (final (run w))) ->
     ev = EvSleep 5 \/ (5000 <= t)%N) /\
  (forall t line, In (t, EvPrint line) (trace (final (run w))) -> (5000 <= t)%N) /\
  (5000 <= clock (final (run w)))%N.
Proof.
  destruct (run_trace w) as (_ & F & C). rewrite Forall_forall in F.
  split; [|split; [|exact C]].
  - intros t ev I. exact (F _ I).
  - intros t line I. destruct (F _ I) as [E|L]; [discriminate E | exact L].
Qed.

End Properties.

(** * The claims on concrete worlds *)

(** The end-to-end example of the specification. *)
Example run_users_output :
  output (run w_users)
  = ["Users in the database:"; "(1, 'alice')"; "(2, 'bob')"].
Proof. vm_compute. reflexivity. Qed.

Example run_users_trace :
  events (run w_users)
  = [EvSleep 5; EvConnect fixed_params; EvCursor; EvExecute query; EvFetchall;
     EvPrint "Users in the database:"; EvPrint "(1, 'alice')"; EvPrint "(2, 'bob')";
     EvCursorClose; EvConnClose].
Proof. vm_compute. reflexivity. Qed.

Example run_unreachable :
  run w_unreachable
  = mkOutcome 1 (Some (OperationalError "could not translate host name"))
      (mkProc 5130 [] [(87%N, EvSleep 5); (5090%N, EvConnect fixed_params)]
         Unborn Unborn None).
Proof. vm_compute. reflexivity. Qed.

Example run_no_cursor_leaks :
  conn_state (final (run w_no_cursor)) = Live /\
  exit_status (run w_no_cursor) = 1%Z.
Proof. vm_compute. split; reflexivity. Qed.

(** A name beyond ASCII on an ASCII standard output: the header and the first
    row are printed, the second [print] raises, nothing is closed. *)
Example run_zoe_ascii :
  output (run w_zoe_ascii) = ["Users in the database:"; "(1, 'alice')"] /\
  exit_status (run w_zoe_ascii) = 1%Z /\
  uncaught (run w_zoe_ascii)
  = Some (UnicodeEncodeError (tuple_str (repr_of w_zoe_ascii) [PyInt 2; PyStr zoe])) /\
  conn_state (final (run w_zoe_ascii)) = Live /\
  length (output (run w_zoe)) = 4.
Proof. vm_compute. repeat split. Qed.

Example tuple_str_shapes :
  tuple_str (py_repr demo_addr) [] = "()" /\
  tuple_str (py_repr demo_addr) [PyInt 7] = "(7,)" /\
  tuple_str (py_repr demo_addr) [PyNone; PyBool true; PyInt (-3); PyStr "it's"]
  = String.append "(None, True, -3, " (String.append (str_repr "it's") ")") /\
  tuple_str (py_repr demo_addr) [PyMemoryview 0 "avatar"]
  = "(<memory at 0x7f3c1439fe80>,)".
Proof. vm_compute. repeat split. Qed.

Lemma C1_linear_run_witness :
  (diagnose w_users = inr users_rows /\
   events (run w_users) = plan (repr_of w_users) users_rows /\
   uncaught (run w_users) = None) /\
  (diagnose w_no_table
   = inl (AtExecute, ProgrammingError "relation users does not exist") /\
   events (run w_no_table)
   = [EvSleep 5; EvConnect fixed_params; EvCursor; EvExecute query]).
Proof.
  split; (split; [reflexivity|]).
  - exact (proj1 (proj2 (C1_linear_run w_users)) users_rows eq_refl eq_refl).
  - exact (proj1 (proj1 (proj2 (proj2 (C1_linear_run w_no_table)))
                   AtExecute _ eq_refl)).
Defined.

Lemma C2_errors_propagate_witness :
  diagnose w_no_table
  = inl (AtExecute, ProgrammingError "relation users does not exist") /\
  uncaught (run w_no_table)
  = Some (ProgrammingError "relation users does not exist") /\
  exit_status (run w_no_table) <> 0%Z /\
  data_lines (output (run w_no_table)) = [] /\
  Forall (fun ev => is_print ev = false) (events (run w_no_table)).
Proof.
  split; [reflexivity|].
  exact (C2_errors_propagate w_no_table AtExecute _ eq_refl).
Defined.



Lemma C4_sleep_before_connect_witness :
  In (5090%N, EvConnect fixed_params) (trace (final (run w_users))) /\
  (5000 <= 5090)%N.
Proof.
  assert (H : In (5090%N, EvConnect fixed_params) (trace (final (run w_users)))).
  { vm_compute. tauto. }
  split; [exact H|].
  exact (proj1 (proj2 (C4_sleep_before_connect w_users) _ _ H)).
Defined.

Lemma C5_counterexample :
  diagnose w_zoe_ascii = inr zoe_rows /\
  length (data_lines (output (run w_zoe_ascii))) <> length zoe_rows.
Proof. split; [reflexivity|]. vm_compute. discriminate. Qed.

Lemma C5_one_line_per_row_witness :
  diagnose w_users = inr users_rows /\
  all_printable w_users users_rows = true /\
  length (data_lines (output (run w_users))) = 2.
Proof.
  split; [reflexivity|]. split; [reflexivity|].
  exact (proj2 (C5_one_line_per_row w_users users_rows eq_refl) eq_refl).
Defined.

Lemma C6_header_only_on_success_witness :
  diagnose w_unreachable
  = inl (AtConnect, OperationalError "could not translate host name") /\
  output (run w_unreachable) = [] /\
  ~ In (EvPrint header) (events (run w_unreachable)).
Proof.
  split; [reflexivity|].
  exact (proj2 (proj2 (C6_header_only_on_success w_unreachable))
           AtConnect _ eq_refl).
Defined.

Lemma C7_close_exactly_once_witness :
  (diagnose w_users = inr users_rows /\
   length (filter is_conn_close (events (run w_users))) = 1 /\
   conn_state (final (run w_users)) = Released) /\
  (diagnose w_fetch_fails
   = inl (AtFetch, OperationalError "server closed the connection unexpectedly") /\
   Forall (fun ev => is_close ev = false) (events (run w_fetch_fails)) /\
   conn_state (final (run w_fetch_fails)) = Live) /\
  (diagnose w_zoe_ascii = inr zoe_rows /\
   all_printable w_zoe_ascii zoe_rows = false /\
   Forall (fun ev => is_close ev = false) (events (run w_zoe_ascii)) /\
   conn_state (final (run w_zoe_ascii)) = Live).
Proof.
  split; [|split].
  - split; [reflexivity|].
    destruct (proj1 (C7_close_exactly_once w_users) users_rows eq_refl eq_refl)
      as (_ & _ & K & R & _).
    exact (conj K R).
  - split; [reflexivity|].
    exact (proj1 (proj2 (C7_close_exactly_once w_fetch_fails)) AtFetch _ eq_refl).
  - split; [reflexivity|]. split; [reflexivity|].
    exact (proj2 (proj2 (C7_close_exactly_once w_zoe_ascii)) zoe_rows eq_refl eq_refl).
Defined.

Lemma C8_fixed_parameters_witness :
  filter_map connect_params (events (run w_unreachable)) = [fixed_params] /\
  filter_map connect_params (events (run w_zoe_ascii)) = [fixed_params].
Proof.
  split.
  - exact (C8_fixed_parameters w_unreachable).
  - exact (C8_fixed_parameters w_zoe_ascii).
Defined.


(** The same table, printed on a UTF-8 and on an ASCII standard output. *)
Example same_rows_other_encoding :
  diagnose w_zoe = inr zoe_rows /\
  diagnose w_zoe_ascii = inr zoe_rows /\
  repr_of w_zoe = repr_of w_zoe_ascii /\
  output (run w_zoe) <> output (run w_zoe_ascii).
Proof. repeat (split; [reflexivity|]). vm_compute. discriminate. Qed.


Lemma C10_empty_result_witness :
  diagnose w_empty = inr [] /\
  output (run w_empty) = ["Users in the database:"] /\
  exit_status (run w_empty) = 0%Z.
Proof.
  split; [reflexivity|].
  destruct (C10_empty_result w_empty eq_refl) as (O & _ & _ & _ & _ & X & _).
  exact (conj O X).
Defined.

(** ** The further properties on concrete worlds *)

Lemma X1_only_the_select_witness :
  filter_map executed_sql (events (run w_fetch_fails)) = ["SELECT * FROM users"] /\
  filter_map executed_sql (events (run w_no_cursor)) = [].
Proof.
  split.
  - exact (X1_only_the_select w_fetch_fails).
  - exact (X1_only_the_select w_no_cursor).
Defined.


Lemma X3_header_once_witness :
  diagnose w_echo = inr [[PyStr "Users in the database:"]] /\
  count_occ string_dec (output (run w_echo)) "Users in the database:" = 1.
Proof.
  split; [reflexivity|].
  exact (proj1 (proj2 (X3_header_once w_echo _ eq_refl))).
Defined.

Lemma X4_quiet_for_five_seconds_witness :
  (5000 <= clock (final (run w_unreachable)))%N /\
  (5000 <= clock (final (run w_zoe_ascii)))%N.
Proof.
  split.
  - exact (proj2 (proj2 (X4_quiet_for_five_seconds w_unreachable))).
  - exact (proj2 (proj2 (X4_quiet_for_five_seconds w_zoe_ascii))).
Defined.
